(** * libcloud.common.linode: the Linode API response layer

    A shallow embedding of [libcloud/common/linode.py] and the properties of
    its three pieces: the [LinodeException] error value, the
    [LinodeResponse] envelope parser and the [LinodeConnection] parameter
    injection.

    The module is dynamically typed: whatever [json.loads] returns flows
    through [in], subscripting, iteration and [==].  The embedding therefore
    starts from a type of decoded values and gives each of those operations
    its Python meaning on every shape of value, raising where Python
    raises. *)

From Stdlib Require Import ZArith QArith String Ascii List.
From stdpp Require Import base option list strings gmap pretty.

Close Scope Q_scope.
Local Open Scope Z_scope.

Set Warnings "-register-all,-clear-no-such-hyp".

(** ** Decoded values *)

(** A Python float: a finite value (kept as the rational it denotes) or one
    of the three specials the decoder accepts. *)
Inductive pyfloat : Type :=
  | FFinite (q : Q)
  | FInf (negative : bool)
  | FNaN.

(** What [json.loads] produces.  A [dict] is kept as its items in iteration
    order; subscripting takes the first item with the key. *)
Inductive pyval : Type :=
  | PNone
  | PBool (b : bool)
  | PInt (z : Z)
  | PFloat (f : pyfloat)
  | PStr (s : string)
  | PList (l : list pyval)
  | PDict (d : list (string * pyval)).

(** ** Module constants *)

Definition API_HOST : string := "api.linode.com".
Definition API_ROOT : string := "/".

(** [LINODE_PLAN_IDS], the dict literal as its items in source order. *)
Definition LINODE_PLAN_IDS : list (Z * string) :=
  [ (512, "1"); (768, "2"); (1024, "3"); (1536, "4"); (2048, "5");
    (4096, "6"); (8192, "7"); (12288, "8"); (16384, "9"); (20480, "10") ].

(** ** Exceptions *)

(** [LinodeException.__init__]: the two attributes and [args]. *)
Record LinodeException : Type := mkLinodeException {
  code : pyval;
  message : pyval;
  args : pyval * pyval
}.

Definition LinodeException_init (c m : pyval) : LinodeException :=
  {| code := c; message := m; args := (c, m) |}.

(** The exceptions that can be in flight: the module's own, the two it
    imports from [libcloud.common.types], and the builtins raised by the
    operations on decoded values. *)
Inductive exc : Type :=
  | ELinode (e : LinodeException)
  | InvalidCredsError (value : pyval)
  | MalformedResponseError (value : string) (body : string)
  | TypeError
  | KeyError (key : string)
  | IndexError
  | ValueError
  | OverflowError.

(** A computation that returns or raises. *)
Inductive result (A : Type) : Type :=
  | Ok (a : A)
  | Raise (e : exc).
Arguments Ok {A} a.
Arguments Raise {A} e.

#[global] Instance result_ret : MRet result := λ A a, Ok a.
#[global] Instance result_bind : MBind result := λ A B f m,
  match m with
  | Ok a => f a
  | Raise e => Raise e
  end.

#[global] Instance result_fmap : FMap result := λ A B f m,
  match m with
  | Ok a => Ok (f a)
  | Raise e => Raise e
  end.

(** [try: m  except: h] with a bare [except]. *)
Definition try_except {A} (m : result A) (h : result A) : result A :=
  match m with
  | Ok a => Ok a
  | Raise _ => h
  end.

(** ** Operations on decoded values *)

Definition dict_get (k : string) (d : list (string * pyval)) : option pyval :=
  snd <$> find (λ kv, String.eqb (fst kv) k) d.

Definition dict_has (k : string) (d : list (string * pyval)) : bool :=
  existsb (λ kv, String.eqb (fst kv) k) d.

(** [needle in hay] on two strings. *)
Fixpoint is_substring (needle hay : string) : bool :=
  String.prefix needle hay ||
  match hay with
  | EmptyString => false
  | String _ hay' => is_substring needle hay'
  end.

Definition str_equals (k : string) (v : pyval) : bool :=
  match v with
  | PStr s => String.eqb s k
  | _ => false
  end.

(** [k in v] for a string [k]: key test on a dict, element test on a list,
    substring test on a string, [TypeError] on anything else. *)
Definition py_in (k : string) (v : pyval) : result bool :=
  match v with
  | PDict d => Ok (dict_has k d)
  | PList l => Ok (existsb (str_equals k) l)
  | PStr s => Ok (is_substring k s)
  | _ => Raise TypeError
  end.

Definition py_not_in (k : string) (v : pyval) : result bool :=
  negb <$> py_in k v.

(** [v[k]] for a string [k]. *)
Definition py_getitem (v : pyval) (k : string) : result pyval :=
  match v with
  | PDict d =>
      match dict_get k d with
      | Some x => Ok x
      | None => Raise (KeyError k)
      end
  | _ => Raise TypeError
  end.

(** [iter(v)], run to the end: the elements of a list, the characters of a
    string, the keys of a dict. *)
Definition py_iter (v : pyval) : result (list pyval) :=
  match v with
  | PList l => Ok l
  | PStr s => Ok ((λ c, PStr (String c EmptyString)) <$> list_ascii_of_string s)
  | PDict d => Ok ((λ kv, PStr (fst kv)) <$> d)
  | _ => Raise TypeError
  end.

(** [v == n] for an integer literal [n]. *)
Definition py_eq_int (v : pyval) (n : Z) : bool :=
  match v with
  | PInt z => Z.eqb z n
  | PBool b => Z.eqb (if b then 1 else 0) n
  | PFloat (FFinite q) => Qeq_bool q (inject_Z n)
  | _ => false
  end.

(** [a or b], [b] evaluated only when [a] is false. *)
Definition py_or (a b : result bool) : result bool :=
  a ≫= λ x : bool, if x then Ok true else b.

(** ** [LinodeException]: string forms *)

(** Truncation toward zero, as [int(x)] on a float. *)
Definition Qtrunc (q : Q) : Z := Z.quot (Qnum q) (Zpos (Qden q)).

(** The [%u] conversion: decimal digits of an integer (with its sign; [%u]
    is [%d]), a float truncated first, [TypeError] on a value that is not a
    number. *)
Definition percent_u (v : pyval) : result string :=
  match v with
  | PInt z => Ok (pretty z)
  | PBool b => Ok (pretty (if b then 1 else 0))
  | PFloat (FFinite q) => Ok (pretty (Qtrunc q))
  | PFloat (FInf _) => Raise OverflowError
  | PFloat FNaN => Raise ValueError
  | _ => Raise TypeError
  end.

Section Str.

(** The builtin [str] on a value that is not itself a string. *)
Variable builtin_str : pyval → string.

(** The [%s] conversion. *)
Definition percent_s (v : pyval) : string :=
  match v with
  | PStr s => s
  | _ => builtin_str v
  end.

(** ["(%u) %s" % (self.code, self.message)] *)
Definition LinodeException_str (self : LinodeException) : result string :=
  c ← percent_u (code self);
  Ok ("(" +:+ c +:+ ") " +:+ percent_s (message self)).

(** ["<LinodeException code %u '%s'>" % (self.code, self.message)] *)
Definition LinodeException_repr (self : LinodeException) : result string :=
  c ← percent_u (code self);
  Ok ("<LinodeException code " +:+ c +:+ " '" +:+
      percent_s (message self) +:+ "'>").

End Str.

(** ** [LinodeResponse] *)

(** The raw response handed over by the transport. *)
Record HTTPResponse : Type := mkHTTPResponse {
  read : string;
  resp_status : Z;
  getheaders : list (string * string);
  reason : string
}.

(** An entry of [errors]: an exception object, or [None]. *)
Definition err_entry : Type := option exc.

Record LinodeResponse : Type := mkLinodeResponse {
  body : string;
  status : Z;
  headers : gmap string string;
  error : string;
  invalid : LinodeException;
  objects : option (list pyval);
  errors : list err_entry
}.

(** [dict(pairs)]: a later pair replaces an earlier one with the same key. *)
Definition dict_of_pairs (l : list (string * string)) : gmap string string :=
  foldl (λ m kv, <[fst kv := snd kv]> m) ∅ l.

Definition invalid_json : LinodeException :=
  LinodeException_init (PInt 255) (PStr "Invalid JSON received from server").

(** [_make_excp]: [None] for an entry without both keys, otherwise the
    exception for the code. *)
Definition _make_excp (error : pyval) : result err_entry :=
  py_or (py_not_in "ERRORCODE" error) (py_not_in "ERRORMESSAGE" error)
  ≫= λ missing : bool,
  if missing then Ok None
  else
    c ← py_getitem error "ERRORCODE";
    if py_eq_int c 4 then
      m ← py_getitem error "ERRORMESSAGE";
      Ok (Some (InvalidCredsError m))
    else
      c ← py_getitem error "ERRORCODE";
      m ← py_getitem error "ERRORMESSAGE";
      Ok (Some (ELinode (LinodeException_init c m))).

(** The two accumulators of the loop in [parse_body]. *)
Definition acc : Type := list pyval * list err_entry.

(** One turn of [for obj in js]. *)
Definition loop_body (self_invalid : LinodeException) (st : acc) (obj : pyval)
  : result acc :=
  let '(ret, errs) := st in
  py_or (py_not_in "DATA" obj)
    (py_or (py_not_in "ERRORARRAY" obj) (py_not_in "ACTION" obj))
  ≫= λ missing : bool,
  if missing then
    Ok (ret ++ [PNone], errs ++ [Some (ELinode self_invalid)])
  else
    data ← py_getitem obj "DATA";
    arr ← py_getitem obj "ERRORARRAY";
    entries ← py_iter arr;
    made ← mapM _make_excp entries;
    Ok (ret ++ [data], errs ++ made).

(** The loop, threading the accumulators through the items. *)
Fixpoint for_loop (self_invalid : LinodeException) (items : list pyval)
  (st : acc) : result acc :=
  match items with
  | [] => Ok st
  | obj :: rest =>
      st' ← loop_body self_invalid st obj;
      for_loop self_invalid rest st'
  end.

(** The body of the second [try] of [parse_body]. *)
Definition extract (self_invalid : LinodeException) (js : pyval) : result acc :=
  let js := match js with PDict _ => PList [js] | _ => js end in
  items ← py_iter js;
  for_loop self_invalid items ([], []).

Section Response.

(** [json.loads]: the decoded value, or [None] when the decoder raises. *)
Variable json_loads : string → option pyval.

Definition parse_body (self_body : string) (self_invalid : LinodeException)
  : result (option (list pyval) * list err_entry) :=
  match json_loads self_body with
  | None => Raise (MalformedResponseError "Failed to parse JSON" self_body)
  | Some js =>
      try_except
        ('(ret, errs) ← extract self_invalid js; Ok (Some ret, errs))
        (Ok (None, [Some (ELinode self_invalid)]))
  end.

(** [len(self.errors) == 0] *)
Definition success (self : LinodeResponse) : bool :=
  Nat.eqb (length (errors self)) 0.

(** [raise v]: only an exception object can be raised. *)
Definition py_raise {A} (v : err_entry) : result A :=
  match v with
  | Some e => Raise e
  | None => Raise TypeError
  end.

(** [raise l[0]] *)
Definition raise_first {A} (l : list err_entry) : result A :=
  match l with
  | v :: _ => py_raise v
  | [] => Raise IndexError
  end.

Definition LinodeResponse_init (response : HTTPResponse)
  : result LinodeResponse :=
  let self_body := read response in
  let self_invalid := invalid_json in
  '(objs, errs) ← parse_body self_body self_invalid;
  let self := {| body := self_body;
                 status := resp_status response;
                 headers := dict_of_pairs (getheaders response);
                 error := reason response;
                 invalid := self_invalid;
                 objects := objs;
                 errors := errs |} in
  if negb (success self) then raise_first (errors self) else Ok self.

End Response.

(** ** [LinodeConnection] *)

(** Request parameters are a [dict] object that the caller and the
    connection share: a store of dicts addressed by reference. *)
Abbreviation ref := positive (only parsing).
Abbreviation store := (gmap ref (gmap string pyval)) (only parsing).

(** [params[k] = v] on the object behind [params]. *)
Definition setitem (params : ref) (k : string) (v : pyval) (h : store)
  : option store :=
  d ← h !! params; Some (<[params := <[k := v]> d]> h).

(** [add_default_params]: two item assignments, then the same reference is
    returned. *)
Definition add_default_params (self_key : pyval) (params : ref) (h : store)
  : option (ref * store) :=
  h1 ← setitem params "api_key" self_key h;
  h2 ← setitem params "api_responseFormat" (PStr "json") h1;
  Some (params, h2).

(** ** Shapes of decoded values named in the properties *)

(** A scalar has neither [__contains__] nor [__iter__]. *)
Definition is_scalar (v : pyval) : bool :=
  match v with
  | PNone | PBool _ | PInt _ | PFloat _ => true
  | _ => false
  end.

(** An entry is malformed when it is a dict without one of the two keys. *)
Definition malformed_entry (e : pyval) : Prop :=
  ∃ d, e = PDict d ∧
       (dict_get "ERRORCODE" d = None ∨ dict_get "ERRORMESSAGE" d = None).

(** An envelope item lacks a key when one of the three lookups fails. *)
Definition lacks_key (d : list (string * pyval)) : Prop :=
  dict_get "DATA" d = None ∨ dict_get "ERRORARRAY" d = None ∨
  dict_get "ACTION" d = None.

(** The two kinds of exception that [_make_excp] and the sentinel stand
    for. *)
Definition api_error (e : exc) : Prop :=
  match e with
  | ELinode _ | InvalidCredsError _ => True
  | _ => False
  end.

(** What an entry of [errors] can be: [None] or one of those. *)
Definition entry_ok (v : err_entry) : Prop :=
  match v with
  | None => True
  | Some e => api_error e
  end.



Definition is_dict (v : pyval) : bool :=
  match v with
  | PDict _ => true
  | _ => false
  end.

(** The entry of [errors] that a dict entry of ERRORARRAY stands for. *)
Definition entry_error (entry : pyval) : err_entry :=
  match entry with
  | PDict en =>
      match dict_get "ERRORCODE" en, dict_get "ERRORMESSAGE" en with
      | Some c, Some m =>
          Some (if py_eq_int c 4 then InvalidCredsError m
                else ELinode (LinodeException_init c m))
      | _, _ => None
      end
  | _ => None
  end.

(** The values that [%u] accepts. *)
Definition is_number (v : pyval) : bool :=
  match v with
  | PBool _ | PInt _ | PFloat _ => true
  | _ => false
  end.

(** The character [c] does not occur in [s]. *)
Fixpoint avoids (c : ascii) (s : string) : Prop :=
  match s with
  | EmptyString => True
  | String x s' => x ≠ c ∧ avoids c s'
  end.

(** Appending the results to what was gathered before. *)
Definition extend (st : acc) (more : acc) : acc :=
  (st.1 ++ more.1, st.2 ++ more.2).

(** ** Sample responses *)

Definition dquote : string := String "034"%char EmptyString.
Definition quoted (s : string) : string := dquote +:+ s +:+ dquote.

(** A decoder known by its graph on a few bodies; every other body is
    rejected. *)
Definition loads_from (table : list (string * pyval)) (s : string)
  : option pyval :=
  snd <$> find (λ e, String.eqb (fst e) s) table.

Definition envelope (data arr : pyval) (action : string) : pyval :=
  PDict [("DATA", data); ("ERRORARRAY", arr); ("ACTION", PStr action)].

Definition envelope_text (data arr action : string) : string :=
  "{" +:+ quoted "DATA" +:+ ": " +:+ data +:+ ", " +:+
  quoted "ERRORARRAY" +:+ ": " +:+ arr +:+ ", " +:+
  quoted "ACTION" +:+ ": " +:+ quoted action +:+ "}".

Definition error_entry (c : Z) (m : string) : pyval :=
  PDict [("ERRORCODE", PInt c); ("ERRORMESSAGE", PStr m)].

Definition error_entry_text (c m : string) : string :=
  "{" +:+ quoted "ERRORCODE" +:+ ": " +:+ c +:+ ", " +:+
  quoted "ERRORMESSAGE" +:+ ": " +:+ quoted m +:+ "}".

Definition sample_table : list (string * pyval) :=
  [ (envelope_text "[1, 2, 3]" "[]" "linode.list",
     envelope (PList [PInt 1; PInt 2; PInt 3]) (PList []) "linode.list");
    (envelope_text "null" ("[" +:+ error_entry_text "4" "Auth failed" +:+ "]") "x",
     envelope PNone (PList [error_entry 4 "Auth failed"]) "x");
    (envelope_text "null" "[{}]" "x",
     envelope PNone (PList [PDict []]) "x");
    (envelope_text "null" ("[{}, " +:+ error_entry_text "5" "m" +:+ "]") "x",
     envelope PNone (PList [PDict []; error_entry 5 "m"]) "x");
    ("[" +:+ envelope_text "1" "[]" "a" +:+ ", 7]",
     PList [envelope (PInt 1) (PList []) "a"; PInt 7]);
    ("42", PInt 42) ].

Definition sample_loads : string → option pyval := loads_from sample_table.

Definition http_ok (text : string) : HTTPResponse :=
  {| read := text; resp_status := 200; getheaders := []; reason := "OK" |}.

(** * Properties *)

(** ** Facts about the operations on decoded values *)

Section ValueFacts.

Implicit Types (k : string) (d : list (string * pyval)) (v : pyval).

Lemma dict_has_of_get k d v : dict_get k d = Some v → dict_has k d = true.
Proof.
  unfold dict_get, dict_has.
  induction d as [|[k' x] d IH]; simpl; [discriminate|].
  destruct (String.eqb k' k); simpl; auto.
Qed.

Lemma dict_has_of_get_None k d : dict_get k d = None → dict_has k d = false.
Proof.
  unfold dict_get, dict_has.
  induction d as [|[k' x] d IH]; simpl; [reflexivity|].
  destruct (String.eqb k' k); simpl; [discriminate|auto].
Qed.

Lemma dict_has_true k d : dict_has k d = true ↔ is_Some (dict_get k d).
Proof.
  split.
  - destruct (dict_get k d) eqn:E; [eauto|].
    rewrite (dict_has_of_get_None _ _ E). discriminate.
  - intros [v E]. eapply dict_has_of_get, E.
Qed.

Lemma py_not_in_dict k d : py_not_in k (PDict d) = Ok (negb (dict_has k d)).
Proof. reflexivity. Qed.

Lemma py_getitem_dict k d v :
  dict_get k d = Some v → py_getitem (PDict d) k = Ok v.
Proof. intros E. simpl. by rewrite E. Qed.

Lemma py_iter_scalar v : is_scalar v = true → py_iter v = Raise TypeError.
Proof. by destruct v. Qed.

Lemma py_in_scalar k v : is_scalar v = true → py_in k v = Raise TypeError.
Proof. by destruct v. Qed.

End ValueFacts.

(** ** The error-entry conversion *)

Section MakeExcp.

Implicit Types (d : list (string * pyval)) (c m : pyval).

(** On a dict entry the conversion is decided by the two lookups. *)
Lemma make_excp_dict d :
  _make_excp (PDict d) =
  match dict_get "ERRORCODE" d, dict_get "ERRORMESSAGE" d with
  | Some c, Some m =>
      Ok (Some (if py_eq_int c 4 then InvalidCredsError m
                else ELinode (LinodeException_init c m)))
  | _, _ => Ok None
  end.
Proof.
  unfold _make_excp, py_or. rewrite !py_not_in_dict. simpl.
  destruct (dict_get "ERRORCODE" d) as [c|] eqn:Ec.
  - rewrite (dict_has_of_get _ _ _ Ec). simpl.
    destruct (dict_get "ERRORMESSAGE" d) as [m|] eqn:Em.
    + rewrite (dict_has_of_get _ _ _ Em). simpl.
      by destruct (py_eq_int c 4).
    + by rewrite (dict_has_of_get_None _ _ Em).
  - by rewrite (dict_has_of_get_None _ _ Ec).
Qed.

Lemma make_excp_malformed e : malformed_entry e → _make_excp e = Ok None.
Proof.
  intros (d & -> & H). rewrite make_excp_dict.
  destruct H as [-> | ->]; [done|]. by destruct (dict_get "ERRORCODE" d).
Qed.

(** The generator over malformed entries yields one [None] per entry. *)
Lemma mapM_make_excp_malformed (entries : list pyval) :
  Forall malformed_entry entries →
  mapM _make_excp entries = Ok (replicate (length entries) None).
Proof.
  induction 1 as [|e entries He _ IH]; [reflexivity|].
  change (mapM _make_excp (e :: entries))
    with (_make_excp e ≫= λ y, mapM _make_excp entries ≫= λ k, mret (y :: k)).
  rewrite (make_excp_malformed _ He), IH. reflexivity.
Qed.

End MakeExcp.

(** ** The extract loop *)

Section Loop.

Variable inv : LinodeException.
Implicit Types (d : list (string * pyval)) (st : acc) (items : list pyval).

Lemma lacks_key_test d :
  lacks_key d →
  py_or (py_not_in "DATA" (PDict d))
    (py_or (py_not_in "ERRORARRAY" (PDict d)) (py_not_in "ACTION" (PDict d)))
  = Ok true.
Proof.
  rewrite !py_not_in_dict. unfold py_or. simpl.
  intros [H | [H | H]]; rewrite (dict_has_of_get_None _ _ H); simpl.
  - done.
  - by destruct (dict_has "DATA" d).
  - by destruct (dict_has "DATA" d), (dict_has "ERRORARRAY" d).
Qed.

Lemma loop_body_lacks_key d st :
  lacks_key d →
  loop_body inv st (PDict d) =
  Ok (st.1 ++ [PNone], st.2 ++ [Some (ELinode inv)]).
Proof.
  intros H. destruct st as [ret errs]. unfold loop_body.
  by rewrite (lacks_key_test _ H).
Qed.

Lemma loop_body_envelope d st data arr action :
  dict_get "DATA" d = Some data →
  dict_get "ERRORARRAY" d = Some arr →
  dict_get "ACTION" d = Some action →
  loop_body inv st (PDict d) =
  (py_iter arr ≫= λ entries, mapM _make_excp entries ≫= λ made,
   Ok (st.1 ++ [data], st.2 ++ made)).
Proof.
  intros Hd Ha Hc. destruct st as [ret errs]. unfold loop_body, py_or.
  rewrite !py_not_in_dict.
  rewrite (dict_has_of_get _ _ _ Hd), (dict_has_of_get _ _ _ Ha),
    (dict_has_of_get _ _ _ Hc). simpl.
  by rewrite Hd, Ha.
Qed.

Lemma for_loop_app items1 items2 st :
  for_loop inv (items1 ++ items2) st =
  (for_loop inv items1 st ≫= for_loop inv items2).
Proof.
  revert st. induction items1 as [|obj items1 IH]; intros st; simpl.
  - reflexivity.
  - destruct (loop_body inv st obj) as [st'|e]; simpl; [apply IH|reflexivity].
Qed.

Lemma for_loop_cons obj items st :
  for_loop inv (obj :: items) st =
  (loop_body inv st obj ≫= for_loop inv items).
Proof. reflexivity. Qed.

(** A scalar among the items aborts the loop. *)
Lemma loop_body_scalar obj st :
  is_scalar obj = true → loop_body inv st obj = Raise TypeError.
Proof.
  intros H. destruct st as [ret errs].
  destruct obj; try discriminate H; reflexivity.
Qed.

(** However far the loop got, a scalar item ends it with nothing returned. *)
Lemma for_loop_scalar_item items1 obj items2 st st' :
  for_loop inv items1 st = Ok st' →
  is_scalar obj = true →
  for_loop inv (items1 ++ obj :: items2) st = Raise TypeError.
Proof.
  intros H S. rewrite for_loop_app, H. simpl.
  by rewrite (loop_body_scalar _ _ S).
Qed.

Lemma extract_scalar js : is_scalar js = true → extract inv js = Raise TypeError.
Proof. by destruct js. Qed.

(** The promotion of a lone dict. *)
Lemma extract_dict d : extract inv (PDict d) = loop_body inv ([], []) (PDict d).
Proof.
  change (extract inv (PDict d))
    with (loop_body inv ([], []) (PDict d) ≫= λ st', Ok st').
  by destruct (loop_body inv ([], []) (PDict d)).
Qed.

Lemma extract_list items : extract inv (PList items) = for_loop inv items ([], []).
Proof. reflexivity. Qed.

End Loop.

(** ** Parsing and construction *)

Section ResponseFacts.

Variable json_loads : string → option pyval.
Implicit Types (response : HTTPResponse) (self : LinodeResponse).

Lemma parse_body_decoded self_body inv js :
  json_loads self_body = Some js →
  parse_body json_loads self_body inv =
  match extract inv js with
  | Ok (ret, errs) => Ok (Some ret, errs)
  | Raise _ => Ok (None, [Some (ELinode inv)])
  end.
Proof.
  intros E. unfold parse_body. rewrite E.
  by destruct (extract inv js) as [[ret errs]|e].
Qed.

Lemma parse_body_fallback self_body inv js e :
  json_loads self_body = Some js →
  extract inv js = Raise e →
  parse_body json_loads self_body inv = Ok (None, [Some (ELinode inv)]).
Proof. intros E X. by rewrite (parse_body_decoded _ _ _ E), X. Qed.

Lemma success_iff self : success self = true ↔ errors self = [].
Proof.
  unfold success. destruct (errors self); simpl; split; congruence.
Qed.

(** The constructor after a completed [parse_body]. *)
Lemma init_of_parse response objs errs :
  parse_body json_loads (read response) invalid_json = Ok (objs, errs) →
  LinodeResponse_init json_loads response =
  match errs with
  | [] => Ok {| body := read response;
                status := resp_status response;
                headers := dict_of_pairs (getheaders response);
                error := reason response;
                invalid := invalid_json;
                objects := objs;
                errors := [] |}
  | v :: _ => py_raise v
  end.
Proof.
  intros E. unfold LinodeResponse_init. rewrite E. simpl.
  by destruct errs.
Qed.

Lemma init_of_parse_raise response e :
  parse_body json_loads (read response) invalid_json = Raise e →
  LinodeResponse_init json_loads response = Raise e.
Proof. intros E. unfold LinodeResponse_init. by rewrite E. Qed.

End ResponseFacts.

(** * The specification's claims *)

(** ** Error value *)

(** C8, as the code has it: an exception built from an integer code [c] and
    a text [m] keeps both unchanged, prints as ["(c) m"] and has the debug
    form ["<LinodeException code c 'm'>"] (the class is named
    LinodeException and the code follows the word "code" after a blank). *)
Theorem LinodeException_forms (builtin_str : pyval → string) (c : Z) (m : string) :
  let e := LinodeException_init (PInt c) (PStr m) in
  LinodeException_str builtin_str e = Ok ("(" +:+ pretty c +:+ ") " +:+ m) ∧
  LinodeException_repr builtin_str e =
    Ok ("<LinodeException code " +:+ pretty c +:+ " '" +:+ m +:+ "'>") ∧
  code e = PInt c ∧ message e = PStr m ∧ args e = (PInt c, PStr m).
Proof. repeat split. Qed.

(** C8, as the specification words it, fails: the debug form of the error
    with code 255 is not ["<ApiError code=255 '...'>"], under either class
    name. *)
Lemma LinodeException_repr_not_ApiError_form :
  let e := LinodeException_init (PInt 255) (PStr "Invalid JSON received from server") in
  LinodeException_repr (λ _, "") e
    ≠ Ok "<ApiError code=255 'Invalid JSON received from server'>" ∧
  LinodeException_repr (λ _, "") e
    ≠ Ok "<LinodeException code=255 'Invalid JSON received from server'>".
Proof. split; intros H; vm_compute in H; discriminate H. Qed.

Example invalid_json_str :
  LinodeException_str (λ _, "") invalid_json
  = Ok "(255) Invalid JSON received from server".
Proof. reflexivity. Qed.

(** ** Error-entry conversion *)

(** C5: an entry holding both keys becomes an InvalidCredsError carrying the
    message when its code equals 4, and otherwise a LinodeException carrying
    that code and that message. *)
Theorem make_excp_by_code (d : list (string * pyval)) (c m : pyval) :
  dict_get "ERRORCODE" d = Some c →
  dict_get "ERRORMESSAGE" d = Some m →
  (py_eq_int c 4 = true →
     _make_excp (PDict d) = Ok (Some (InvalidCredsError m))) ∧
  (py_eq_int c 4 = false →
     ∃ e, _make_excp (PDict d) = Ok (Some (ELinode e)) ∧
          code e = c ∧ message e = m).
Proof.
  intros Hc Hm. rewrite make_excp_dict, Hc, Hm. split; intros ->.
  - reflexivity.
  - eexists. repeat split.
Qed.

Lemma make_excp_by_code_witness :
  _make_excp (error_entry 4 "Auth failed")
    = Ok (Some (InvalidCredsError (PStr "Auth failed"))) ∧
  ∃ e, _make_excp (error_entry 5 "m") = Ok (Some (ELinode e)) ∧
       code e = PInt 5 ∧ message e = PStr "m".
Proof.
  split.
  - apply (make_excp_by_code _ (PInt 4) (PStr "Auth failed")); reflexivity.
  - apply (make_excp_by_code _ (PInt 5) (PStr "m")); reflexivity.
Defined.

(** An integer code other than 4 is carried as it is. *)
Lemma make_excp_other_code (d : list (string * pyval)) (z : Z) (m : pyval) :
  dict_get "ERRORCODE" d = Some (PInt z) →
  dict_get "ERRORMESSAGE" d = Some m →
  z ≠ 4 →
  _make_excp (PDict d) = Ok (Some (ELinode (LinodeException_init (PInt z) m))).
Proof.
  intros Hc Hm Hz. rewrite make_excp_dict, Hc, Hm. simpl.
  destruct (Z.eqb_spec z 4); [contradiction|reflexivity].
Qed.

(** ** The extract step *)

(** C4: an item of the decoded list that lacks one of DATA, ERRORARRAY and
    ACTION adds a null marker to [objects] and the invalid-JSON sentinel
    (code 0xFF) to [errors], whatever else the item holds (its ERRORARRAY
    is never looked at), and the loop goes on with the items after it. *)
Theorem item_lacking_key_marks_invalid
  (d : list (string * pyval)) (before after : list pyval) (st : acc) :
  lacks_key d →
  loop_body invalid_json st (PDict d)
    = Ok (st.1 ++ [PNone], st.2 ++ [Some (ELinode invalid_json)]) ∧
  for_loop invalid_json (before ++ PDict d :: after) st
    = (for_loop invalid_json before st ≫= λ st',
       for_loop invalid_json after
         (st'.1 ++ [PNone], st'.2 ++ [Some (ELinode invalid_json)])) ∧
  code invalid_json = PInt 255 ∧
  message invalid_json = PStr "Invalid JSON received from server".
Proof.
  intros H. repeat split.
  - by apply loop_body_lacks_key.
  - rewrite for_loop_app.
    destruct (for_loop invalid_json before st) as [st'|e]; [|reflexivity].
    simpl. by rewrite (loop_body_lacks_key _ _ _ H).
Qed.

Lemma item_lacking_key_marks_invalid_witness :
  for_loop invalid_json
    ([envelope (PInt 1) (PList []) "a"] ++
     PDict [("DATA", PInt 2); ("ERRORARRAY", PInt 7)] ::
     [envelope (PInt 3) (PList []) "c"]) ([], [])
  = Ok ([PInt 1; PNone; PInt 3], [Some (ELinode invalid_json)]).
Proof.
  refine (eq_trans (proj1 (proj2
    (item_lacking_key_marks_invalid
       [("DATA", PInt 2); ("ERRORARRAY", PInt 7)]
       [envelope (PInt 1) (PList []) "a"]
       [envelope (PInt 3) (PList []) "c"] ([], []) _))) _).
  - right; right; reflexivity.
  - reflexivity.
Defined.

(** An envelope whose ERRORARRAY is a list of malformed entries: each entry
    leaves a [None] in the error accumulator. *)
Lemma loop_body_malformed_entries
  (inv : LinodeException) (d : list (string * pyval)) (st : acc)
  (data action : pyval) (entries : list pyval) :
  dict_get "DATA" d = Some data →
  dict_get "ERRORARRAY" d = Some (PList entries) →
  dict_get "ACTION" d = Some action →
  Forall malformed_entry entries →
  loop_body inv st (PDict d)
    = Ok (st.1 ++ [data], st.2 ++ replicate (length entries) None).
Proof.
  intros Hd Ha Hc Hm.
  rewrite (loop_body_envelope _ _ _ _ _ _ Hd Ha Hc). simpl.
  by rewrite (mapM_make_excp_malformed _ Hm).
Qed.

(** C1 fails on the code: the conversion of an entry without ERRORCODE
    returns [None], and that [None] is appended to [errors]; the response
    [{DATA: null, ERRORARRAY: [{}], ACTION: x}] ends with [errors = [None]],
    is not successful, and its construction stops in [raise None]. *)
Theorem malformed_entry_kept_as_None
  (json_loads : string → option pyval) (response : HTTPResponse) :
  json_loads (read response) = Some (envelope PNone (PList [PDict []]) "x") →
  malformed_entry (PDict []) ∧
  _make_excp (PDict []) = Ok None ∧
  parse_body json_loads (read response) invalid_json
    = Ok (Some [PNone], [None]) ∧
  LinodeResponse_init json_loads response = Raise TypeError.
Proof.
  intros E.
  assert (P : parse_body json_loads (read response) invalid_json
              = Ok (Some [PNone], [None]))
    by (by rewrite (parse_body_decoded _ _ _ _ E)).
  repeat split.
  - exists []. split; [reflexivity|by left].
  - exact P.
  - by rewrite (init_of_parse _ _ _ _ P).
Qed.

Lemma malformed_entry_kept_as_None_witness :
  LinodeResponse_init sample_loads (http_ok (envelope_text "null" "[{}]" "x"))
  = Raise TypeError.
Proof.
  apply (malformed_entry_kept_as_None sample_loads
           (http_ok (envelope_text "null" "[{}]" "x"))).
  reflexivity.
Defined.

(** C6: a lone envelope object with the three keys and an empty ERRORARRAY
    is handled as the one-item list holding it; construction completes,
    [success] is true and [objects] is the list of its DATA value. *)
Theorem single_envelope_success
  (json_loads : string → option pyval) (response : HTTPResponse)
  (d : list (string * pyval)) (data action : pyval) :
  json_loads (read response) = Some (PDict d) →
  dict_get "DATA" d = Some data →
  dict_get "ERRORARRAY" d = Some (PList []) →
  dict_get "ACTION" d = Some action →
  extract invalid_json (PDict d) = extract invalid_json (PList [PDict d]) ∧
  ∃ self, LinodeResponse_init json_loads response = Ok self ∧
          success self = true ∧
          objects self = Some [data] ∧
          errors self = [].
Proof.
  intros E Hd Ha Hc. split; [reflexivity|].
  assert (P : parse_body json_loads (read response) invalid_json
              = Ok (Some [data], [])).
  { rewrite (parse_body_decoded _ _ _ _ E), extract_dict.
    by rewrite (loop_body_envelope _ _ _ _ _ _ Hd Ha Hc). }
  rewrite (init_of_parse _ _ _ _ P). eexists. repeat split.
Qed.

Lemma single_envelope_success_witness :
  ∃ self,
    LinodeResponse_init sample_loads
      (http_ok (envelope_text "[1, 2, 3]" "[]" "linode.list")) = Ok self ∧
    success self = true ∧
    objects self = Some [PList [PInt 1; PInt 2; PInt 3]] ∧
    errors self = [].
Proof.
  apply (single_envelope_success sample_loads
           (http_ok (envelope_text "[1, 2, 3]" "[]" "linode.list"))
           [("DATA", PList [PInt 1; PInt 2; PInt 3]); ("ERRORARRAY", PList []);
            ("ACTION", PStr "linode.list")]
           (PList [PInt 1; PInt 2; PInt 3]) (PStr "linode.list"));
    reflexivity.
Defined.

(** ** Decoding failures and the fallback *)

(** C2: when the decoder rejects the body, [parse_body] raises
    MalformedResponseError with the description "Failed to parse JSON" and
    the raw body; the constructor lets it through, so no response object
    (and no [errors] sequence) comes into being. *)
Theorem undecodable_body_raises_malformed
  (json_loads : string → option pyval) (response : HTTPResponse) :
  json_loads (read response) = None →
  let failure := MalformedResponseError "Failed to parse JSON" (read response) in
  parse_body json_loads (read response) invalid_json = Raise failure ∧
  LinodeResponse_init json_loads response = Raise failure ∧
  ∀ self, LinodeResponse_init json_loads response ≠ Ok self.
Proof.
  intros E failure.
  assert (P : parse_body json_loads (read response) invalid_json = Raise failure)
    by (unfold parse_body; by rewrite E).
  pose proof (init_of_parse_raise _ _ _ P) as I.
  repeat split; [exact P|exact I|]. intros self. by rewrite I.
Qed.

Lemma undecodable_body_raises_malformed_witness :
  LinodeResponse_init sample_loads (http_ok "not json")
  = Raise (MalformedResponseError "Failed to parse JSON" "not json").
Proof.
  apply (undecodable_body_raises_malformed sample_loads (http_ok "not json")).
  reflexivity.
Defined.

(** C7: whenever the extract step raises on the decoded value, [parse_body]
    itself returns, with [objects] undefined and [errors] holding the
    invalid-JSON sentinel alone; nothing gathered before the failure is
    kept. *)
Theorem extract_failure_falls_back
  (json_loads : string → option pyval) (self_body : string)
  (inv : LinodeException) (js : pyval) (e : exc) :
  json_loads self_body = Some js →
  extract inv js = Raise e →
  parse_body json_loads self_body inv = Ok (None, [Some (ELinode inv)]).
Proof. intros E X. exact (parse_body_fallback _ _ _ _ _ E X). Qed.

Lemma extract_failure_falls_back_witness :
  for_loop invalid_json [envelope (PInt 1) (PList []) "a"] ([], [])
    = Ok ([PInt 1], []) ∧
  parse_body sample_loads ("[" +:+ envelope_text "1" "[]" "a" +:+ ", 7]")
    invalid_json
  = Ok (None, [Some (ELinode invalid_json)]).
Proof.
  split; [reflexivity|].
  apply (extract_failure_falls_back sample_loads _ invalid_json
           (PList [envelope (PInt 1) (PList []) "a"; PInt 7]) TypeError);
    reflexivity.
Defined.

(** C10: a body that decodes to a number, a boolean or null does not end
    in MalformedResponseError; [parse_body] returns the fallback pair and
    the constructor raises the sentinel, whose code is 0xFF. *)
Theorem scalar_body_raises_sentinel
  (json_loads : string → option pyval) (response : HTTPResponse) (js : pyval) :
  json_loads (read response) = Some js →
  is_scalar js = true →
  parse_body json_loads (read response) invalid_json
    = Ok (None, [Some (ELinode invalid_json)]) ∧
  LinodeResponse_init json_loads response = Raise (ELinode invalid_json) ∧
  code invalid_json = PInt 255.
Proof.
  intros E S.
  pose proof (parse_body_fallback _ _ _ _ _ E (extract_scalar invalid_json _ S)) as P.
  repeat split; [exact P|]. by rewrite (init_of_parse _ _ _ _ P).
Qed.

Lemma scalar_body_raises_sentinel_witness :
  LinodeResponse_init sample_loads (http_ok "42") = Raise (ELinode invalid_json).
Proof.
  apply (scalar_body_raises_sentinel sample_loads (http_ok "42") (PInt 42));
    reflexivity.
Defined.

(** ** Success and the raised error *)

(** [success] is read off [errors] each time. *)
Lemma success_computed (self : LinodeResponse) :
  success self = true ↔ errors self = [].
Proof. apply success_iff. Qed.

(** With an exception object at the head of [errors], the constructor raises
    that object, whatever follows it. *)
Lemma init_raises_head
  (json_loads : string → option pyval) (response : HTTPResponse)
  (objs : option (list pyval)) (e : exc) (rest : list err_entry) :
  parse_body json_loads (read response) invalid_json = Ok (objs, Some e :: rest) →
  LinodeResponse_init json_loads response = Raise e.
Proof. intros P. by rewrite (init_of_parse _ _ _ _ P). Qed.

(** A construction that completes has no errors. *)
Lemma init_ok_success
  (json_loads : string → option pyval) (response : HTTPResponse)
  (self : LinodeResponse) :
  LinodeResponse_init json_loads response = Ok self →
  success self = true ∧ errors self = [].
Proof.
  unfold LinodeResponse_init.
  destruct (parse_body json_loads (read response) invalid_json)
    as [[objs errs]|e]; simpl; [|discriminate].
  destruct errs as [|v errs]; simpl.
  - intros [= <-]. by split.
  - destruct v; discriminate.
Qed.

(** C3 fails on the code where the head of [errors] is the [None] left by a
    malformed entry: for [{DATA: null, ERRORARRAY: [{}, {ERRORCODE: 5,
    ERRORMESSAGE: m}], ACTION: x}] the sequence is [None] followed by the
    error with code 5, and the constructor ends in the TypeError of
    [raise None] instead of raising an entry of [errors]. *)
Theorem init_raises_TypeError_on_None_head
  (json_loads : string → option pyval) (response : HTTPResponse) :
  json_loads (read response)
    = Some (envelope PNone (PList [PDict []; error_entry 5 "m"]) "x") →
  parse_body json_loads (read response) invalid_json
    = Ok (Some [PNone],
          [None; Some (ELinode (LinodeException_init (PInt 5) (PStr "m")))]) ∧
  LinodeResponse_init json_loads response = Raise TypeError.
Proof.
  intros E.
  assert (P : parse_body json_loads (read response) invalid_json
              = Ok (Some [PNone],
                    [None; Some (ELinode (LinodeException_init (PInt 5) (PStr "m")))]))
    by (by rewrite (parse_body_decoded _ _ _ _ E)).
  split; [exact P|]. by rewrite (init_of_parse _ _ _ _ P).
Qed.

Lemma init_raises_TypeError_on_None_head_witness :
  LinodeResponse_init sample_loads
    (http_ok (envelope_text "null" ("[{}, " +:+ error_entry_text "5" "m" +:+ "]") "x"))
  = Raise TypeError.
Proof.
  apply (init_raises_TypeError_on_None_head sample_loads
           (http_ok (envelope_text "null"
                       ("[{}, " +:+ error_entry_text "5" "m" +:+ "]") "x"))).
  reflexivity.
Defined.

(** ** Connection *)

(** Item assignment on an allocated dict. *)
Lemma setitem_allocated
  (params : ref) (k : string) (v : pyval) (h : store) (d : gmap string pyval) :
  h !! params = Some d →
  setitem params k v h = Some (<[params := <[k := v]> d]> h).
Proof. intros Hd. unfold setitem. by rewrite Hd. Qed.

Lemma add_default_params_allocated
  (self_key : pyval) (params : ref) (h : store) (d : gmap string pyval) :
  h !! params = Some d →
  add_default_params self_key params h =
  Some (params,
        <[params := <["api_responseFormat" := PStr "json"]>
                      (<["api_key" := self_key]> d)]> h).
Proof.
  intros Hd. unfold add_default_params.
  rewrite (setitem_allocated _ _ _ _ _ Hd). simpl.
  rewrite (setitem_allocated _ _ _ _ (<["api_key" := self_key]> d))
    by apply lookup_insert_eq.
  simpl. by rewrite insert_insert_eq.
Qed.

(** C9: on the dict behind [params], [add_default_params] binds "api_key"
    to the connection's key and "api_responseFormat" to "json" (replacing
    what was bound before), changes no other key and no other object, and
    returns [params] itself. *)
Theorem add_default_params_sets_two_keys
  (self_key : pyval) (params : ref) (h : store) (d : gmap string pyval) :
  h !! params = Some d →
  ∃ h' d',
    add_default_params self_key params h = Some (params, h') ∧
    h' !! params = Some d' ∧
    d' !! "api_key" = Some self_key ∧
    d' !! "api_responseFormat" = Some (PStr "json") ∧
    (∀ k, k ≠ "api_key" → k ≠ "api_responseFormat" → d' !! k = d !! k) ∧
    (∀ r, r ≠ params → h' !! r = h !! r).
Proof.
  intros Hd. rewrite (add_default_params_allocated _ _ _ _ Hd).
  eexists _, _. split; [reflexivity|]. split; [apply lookup_insert_eq|].
  repeat split.
  - rewrite lookup_insert_ne by done. apply lookup_insert_eq.
  - apply lookup_insert_eq.
  - intros k H1 H2. by rewrite !lookup_insert_ne.
  - intros r Hr. by rewrite lookup_insert_ne.
Qed.

Lemma add_default_params_sets_two_keys_witness :
  ∃ h' d',
    add_default_params (PStr "K") 1%positive
      {[ 1%positive := {[ "foo" := PStr "bar" ]} ]} = Some (1%positive, h') ∧
    h' !! 1%positive = Some d' ∧
    d' !! "api_key" = Some (PStr "K") ∧
    d' !! "api_responseFormat" = Some (PStr "json") ∧
    (∀ k, k ≠ "api_key" → k ≠ "api_responseFormat" →
          d' !! k = ({[ "foo" := PStr "bar" ]} : gmap string pyval) !! k) ∧
    (∀ r, r ≠ 1%positive →
          h' !! r = ({[ 1%positive := {[ "foo" := PStr "bar" ]} ]} : store) !! r).
Proof.
  apply (add_default_params_sets_two_keys (PStr "K") 1%positive
           {[ 1%positive := {[ "foo" := PStr "bar" ]} ]}
           {[ "foo" := PStr "bar" ]}).
  reflexivity.
Defined.

(** The scenario of the specification: key K and parameters [{foo: bar}]. *)
Example add_default_params_foo_bar :
  add_default_params (PStr "K") 1%positive
    {[ 1%positive := {[ "foo" := PStr "bar" ]} ]}
  = Some (1%positive,
          {[ 1%positive := {[ "foo" := PStr "bar"; "api_key" := PStr "K";
                              "api_responseFormat" := PStr "json" ]} ]}).
Proof. vm_compute. reflexivity. Qed.

(** * Further properties of the module *)

(** ** What can be raised *)

Lemma result_bind_Ok {A B} (a : A) (f : A → result B) : (Ok a ≫= f) = f a.
Proof. reflexivity. Qed.

Lemma mapM_result_cons {A B} (f : A → result B) (x : A) (l : list A) :
  mapM f (x :: l) = (f x ≫= λ y, mapM f l ≫= λ k, Ok (y :: k)).
Proof. reflexivity. Qed.

Lemma mapM_result_length {A B} (f : A → result B) (l : list A) (ys : list B) :
  mapM f l = Ok ys → length ys = length l.
Proof.
  revert ys. induction l as [|x l IH]; intros ys.
  - intros [= <-]. reflexivity.
  - rewrite mapM_result_cons.
    destruct (f x) as [y|e]; simpl; [|discriminate].
    destruct (mapM f l) as [k|e]; simpl; [|discriminate].
    intros [= <-]. simpl. f_equal. by apply IH.
Qed.

Lemma mapM_result_Forall {A B} (P : B → Prop) (f : A → result B)
  (l : list A) (ys : list B) :
  (∀ x y, f x = Ok y → P y) →
  mapM f l = Ok ys → Forall P ys.
Proof.
  intros Hf. revert ys. induction l as [|x l IH]; intros ys.
  - intros [= <-]. constructor.
  - rewrite mapM_result_cons.
    destruct (f x) as [y|e] eqn:E; simpl; [|discriminate].
    destruct (mapM f l) as [k|e]; simpl; [|discriminate].
    intros [= <-]. constructor; [eapply Hf, E|by apply IH].
Qed.

(** The conversion returns [None], an InvalidCredsError or a
    LinodeException, when it returns. *)
Lemma make_excp_entry_ok (v : pyval) (r : err_entry) :
  _make_excp v = Ok r → entry_ok r.
Proof.
  unfold _make_excp.
  destruct (py_or _ _) as [[|]|e]; simpl; try discriminate.
  - by intros [= <-].
  - destruct (py_getitem v "ERRORCODE") as [c|e]; simpl; [|discriminate].
    destruct (py_eq_int c 4);
      destruct (py_getitem v "ERRORMESSAGE") as [m|e]; simpl;
      try discriminate; by intros [= <-].
Qed.

Lemma loop_body_entries_ok (inv : LinodeException) (st st' : acc) (obj : pyval) :
  loop_body inv st obj = Ok st' →
  Forall entry_ok st.2 → Forall entry_ok st'.2.
Proof.
  destruct st as [ret errs]. unfold loop_body.
  destruct (py_or _ _) as [[|]|e]; simpl; try discriminate.
  - intros [= <-] H. simpl. apply Forall_app. split; [done|].
    by repeat constructor.
  - destruct (py_getitem obj "DATA") as [data|e]; simpl; [|discriminate].
    destruct (py_getitem obj "ERRORARRAY") as [arr|e]; simpl; [|discriminate].
    destruct (py_iter arr) as [entries|e]; simpl; [|discriminate].
    destruct (mapM _make_excp entries) as [made|e] eqn:M; simpl; [|discriminate].
    intros [= <-] H. simpl. apply Forall_app. split; [done|].
    eapply mapM_result_Forall, M. apply make_excp_entry_ok.
Qed.

Lemma for_loop_entries_ok (inv : LinodeException) (items : list pyval) (st st' : acc) :
  for_loop inv items st = Ok st' →
  Forall entry_ok st.2 → Forall entry_ok st'.2.
Proof.
  revert st. induction items as [|obj items IH]; intros st; simpl.
  - by intros [= <-].
  - destruct (loop_body inv st obj) as [st1|e] eqn:B; simpl; [|discriminate].
    intros L H. eapply IH; [exact L|]. eapply loop_body_entries_ok; eauto.
Qed.

Lemma parse_body_entries_ok
  (json_loads : string → option pyval) (self_body : string)
  (inv : LinodeException) (objs : option (list pyval)) (errs : list err_entry) :
  parse_body json_loads self_body inv = Ok (objs, errs) →
  Forall entry_ok errs.
Proof.
  unfold parse_body. destruct (json_loads self_body) as [js|]; [|discriminate].
  destruct (extract inv js) as [[ret es]|e] eqn:X; simpl.
  - intros [= <- <-]. unfold extract in X.
    destruct (py_iter _) as [items|e]; simpl in X; [|discriminate].
    by apply (for_loop_entries_ok _ _ _ _ X).
  - intros [= <- <-]. by repeat constructor.
Qed.

Lemma parse_body_Raise_inv
  (json_loads : string → option pyval) (self_body : string)
  (inv : LinodeException) (e : exc) :
  parse_body json_loads self_body inv = Raise e →
  json_loads self_body = None ∧
  e = MalformedResponseError "Failed to parse JSON" self_body.
Proof.
  unfold parse_body. destruct (json_loads self_body) as [js|].
  - by destruct (extract inv js) as [[ret errs]|e'].
  - by intros [= <-].
Qed.

(** Whatever the body, [parse_body] raises nothing but the
    MalformedResponseError of a rejected body: no exception of the extract
    step leaves it. *)
Theorem parse_body_raises_only_malformed
  (json_loads : string → option pyval) (self_body : string)
  (inv : LinodeException) (e : exc) :
  parse_body json_loads self_body inv = Raise e →
  json_loads self_body = None ∧
  e = MalformedResponseError "Failed to parse JSON" self_body.
Proof. apply parse_body_Raise_inv. Qed.

Lemma parse_body_raises_only_malformed_witness :
  sample_loads "not json" = None ∧
  MalformedResponseError "Failed to parse JSON" "not json"
  = MalformedResponseError "Failed to parse JSON" "not json".
Proof.
  apply (parse_body_raises_only_malformed sample_loads "not json" invalid_json).
  reflexivity.
Defined.

(** X1: the constructor raises a MalformedResponseError (rejected body), a
    LinodeException or an InvalidCredsError (the head of [errors]), or the
    TypeError of raising a [None] head; never a KeyError, IndexError,
    ValueError or OverflowError. *)
Theorem init_raises_classified
  (json_loads : string → option pyval) (response : HTTPResponse) (e : exc) :
  LinodeResponse_init json_loads response = Raise e →
  e = MalformedResponseError "Failed to parse JSON" (read response) ∨
  api_error e ∨ e = TypeError.
Proof.
  unfold LinodeResponse_init.
  destruct (parse_body json_loads (read response) invalid_json)
    as [[objs errs]|e'] eqn:P; simpl.
  - pose proof (parse_body_entries_ok _ _ _ _ _ P) as H.
    destruct errs as [|v errs]; simpl; [discriminate|].
    apply Forall_cons in H as [Hv _].
    destruct v as [e0|]; simpl; intros [= <-]; auto.
  - intros [= <-]. left.
    by destruct (parse_body_Raise_inv _ _ _ _ P) as [_ ->].
Qed.

Lemma init_raises_classified_witness :
  ELinode invalid_json
    = MalformedResponseError "Failed to parse JSON" (read (http_ok "42")) ∨
  api_error (ELinode invalid_json) ∨ ELinode invalid_json = TypeError.
Proof.
  apply (init_raises_classified sample_loads (http_ok "42")).
  reflexivity.
Defined.

(** ** Completed constructions *)

(** X2: when the constructor returns, the object holds the response's body,
    status, reason and headers and the sentinel, [errors] is empty,
    [success] is true, and [objects] is a list (never [None]). *)
Theorem init_ok_fields
  (json_loads : string → option pyval) (response : HTTPResponse)
  (self : LinodeResponse) :
  LinodeResponse_init json_loads response = Ok self →
  body self = read response ∧
  status self = resp_status response ∧
  error self = reason response ∧
  headers self = dict_of_pairs (getheaders response) ∧
  invalid self = invalid_json ∧
  errors self = [] ∧ success self = true ∧
  ∃ ret, objects self = Some ret.
Proof.
  unfold LinodeResponse_init.
  destruct (parse_body json_loads (read response) invalid_json)
    as [[objs errs]|e] eqn:P; simpl; [|discriminate].
  destruct errs as [|v errs]; simpl.
  - intros [= <-]. simpl. repeat split.
    unfold parse_body in P.
    destruct (json_loads (read response)) as [js|]; [|discriminate].
    destruct (extract invalid_json js) as [[ret es]|e]; simpl in P;
      [|discriminate].
    injection P as <- _. eauto.
  - destruct v; discriminate.
Qed.

Lemma init_ok_fields_witness :
  ∃ self,
    LinodeResponse_init sample_loads
      (http_ok (envelope_text "[1, 2, 3]" "[]" "linode.list")) = Ok self ∧
    body self = envelope_text "[1, 2, 3]" "[]" "linode.list" ∧
    errors self = [].
Proof.
  eexists. split; [reflexivity|].
  split; eapply (init_ok_fields sample_loads
                   (http_ok (envelope_text "[1, 2, 3]" "[]" "linode.list")));
    reflexivity.
Defined.

(** ** The loop as a whole *)

Section LoopShape.

Variable inv : LinodeException.
Implicit Types (st : acc) (items : list pyval) (obj : pyval).

(** A turn of the loop reads nothing of the accumulators: it appends. *)
Lemma loop_body_appends st obj :
  loop_body inv st obj = (extend st <$> loop_body inv ([], []) obj).
Proof.
  destruct st as [ret errs]. unfold loop_body.
  destruct (py_or _ _) as [[|]|e]; simpl; try reflexivity.
  destruct (py_getitem obj "DATA") as [data|e]; simpl; [|reflexivity].
  destruct (py_getitem obj "ERRORARRAY") as [arr|e]; simpl; [|reflexivity].
  destruct (py_iter arr) as [entries|e]; simpl; [|reflexivity].
  by destruct (mapM _make_excp entries) as [made|e].
Qed.

Lemma extend_assoc st a b : extend (extend st a) b = extend st (extend a b).
Proof. unfold extend. simpl. by rewrite <- !app_assoc. Qed.

Lemma extend_nil_l st : extend ([], []) st = st.
Proof. by destruct st. Qed.

Lemma for_loop_appends items st :
  for_loop inv items st = (extend st <$> for_loop inv items ([], [])).
Proof.
  revert st. induction items as [|obj items IH]; intros st.
  - simpl. unfold extend. simpl. rewrite !app_nil_r. by destruct st.
  - rewrite !for_loop_cons, (loop_body_appends st).
    destruct (loop_body inv ([], []) obj) as [one|e]; simpl; [|reflexivity].
    rewrite (IH (extend st one)), (IH one).
    destruct (for_loop inv items ([], [])) as [more|e]; simpl; [|reflexivity].
    by rewrite extend_assoc.
Qed.

Lemma loop_body_length st st' obj :
  loop_body inv st obj = Ok st' → length st'.1 = S (length st.1).
Proof.
  destruct st as [ret errs]. unfold loop_body.
  destruct (py_or _ _) as [[|]|e]; simpl; try discriminate.
  - intros [= <-]. simpl. rewrite length_app. simpl. lia.
  - destruct (py_getitem obj "DATA") as [data|e]; simpl; [|discriminate].
    destruct (py_getitem obj "ERRORARRAY") as [arr|e]; simpl; [|discriminate].
    destruct (py_iter arr) as [entries|e]; simpl; [|discriminate].
    destruct (mapM _make_excp entries) as [made|e]; simpl; [|discriminate].
    intros [= <-]. simpl. rewrite length_app. simpl. lia.
Qed.

Lemma for_loop_length items st st' :
  for_loop inv items st = Ok st' →
  length st'.1 = (length st.1 + length items)%nat.
Proof.
  revert st. induction items as [|obj items IH]; intros st.
  - intros [= <-]. simpl. lia.
  - rewrite for_loop_cons.
    destruct (loop_body inv st obj) as [st1|e] eqn:B; simpl; [|discriminate].
    intros L. rewrite (IH _ L), (loop_body_length _ _ _ B). lia.
Qed.

End LoopShape.

(** X3: when the extract step returns on a decoded list, [objects] has
    exactly one slot per item of the list. *)
Theorem extract_one_slot_per_item
  (inv : LinodeException) (items : list pyval) (ret : list pyval)
  (errs : list err_entry) :
  extract inv (PList items) = Ok (ret, errs) →
  length ret = length items.
Proof. rewrite extract_list. intros L. exact (for_loop_length _ _ _ _ L). Qed.

Lemma extract_one_slot_per_item_witness :
  length [PInt 1; PNone; PInt 3] = 3%nat.
Proof.
  apply (extract_one_slot_per_item invalid_json
           [envelope (PInt 1) (PList []) "a";
            PDict [("DATA", PInt 2); ("ERRORARRAY", PInt 7)];
            envelope (PInt 3) (PList []) "c"]
           [PInt 1; PNone; PInt 3] [Some (ELinode invalid_json)]).
  reflexivity.
Defined.

(** X4: the extract step distributes over concatenation of batches: if it
    returns on two lists of items, on their concatenation it returns the
    two [objects] and the two [errors] concatenated. *)
Theorem extract_app
  (inv : LinodeException) (items1 items2 : list pyval) (r1 r2 : acc) :
  extract inv (PList items1) = Ok r1 →
  extract inv (PList items2) = Ok r2 →
  extract inv (PList (items1 ++ items2)) = Ok (r1.1 ++ r2.1, r1.2 ++ r2.2).
Proof.
  rewrite !extract_list. intros H1 H2.
  rewrite for_loop_app, H1. simpl.
  by rewrite for_loop_appends, H2.
Qed.

Lemma extract_app_witness :
  extract invalid_json
    (PList ([envelope (PInt 1) (PList []) "a"] ++
            [envelope PNone (PList [error_entry 5 "m"]) "b"]))
  = Ok ([PInt 1; PNone],
        [Some (ELinode (LinodeException_init (PInt 5) (PStr "m")))]).
Proof.
  apply (extract_app invalid_json
           [envelope (PInt 1) (PList []) "a"]
           [envelope PNone (PList [error_entry 5 "m"]) "b"]
           ([PInt 1], [])
           ([PNone], [Some (ELinode (LinodeException_init (PInt 5) (PStr "m")))]));
    reflexivity.
Defined.

(** X5: one failing item spoils the batch: if the extract step raises on a
    list of items, it raises on every list that starts with it, so that
    [parse_body] gives the fallback pair, not the items gathered so far. *)
Theorem extract_raise_prefix
  (json_loads : string → option pyval) (self_body : string)
  (inv : LinodeException) (items1 items2 : list pyval) (e : exc) :
  json_loads self_body = Some (PList (items1 ++ items2)) →
  extract inv (PList items1) = Raise e →
  extract inv (PList (items1 ++ items2)) = Raise e ∧
  parse_body json_loads self_body inv = Ok (None, [Some (ELinode inv)]).
Proof.
  intros E. rewrite !extract_list. intros H.
  assert (X : for_loop inv (items1 ++ items2) ([], []) = Raise e)
    by (by rewrite for_loop_app, H).
  split; [exact X|].
  by rewrite (parse_body_decoded _ _ _ _ E), extract_list, X.
Qed.

Lemma extract_raise_prefix_witness :
  parse_body sample_loads ("[" +:+ envelope_text "1" "[]" "a" +:+ ", 7]")
    invalid_json
  = Ok (None, [Some (ELinode invalid_json)]).
Proof.
  apply (extract_raise_prefix sample_loads _ invalid_json
           [envelope (PInt 1) (PList []) "a"; PInt 7] [] TypeError);
    reflexivity.
Defined.

(** ** Batches *)





(** ** Items and entries of the wrong shape *)

(** X7: an item that is not a dict never contributes data: its turn of the
    loop either records the null marker and the sentinel, or raises
    TypeError. *)
Theorem non_dict_item_marked_or_raises
  (inv : LinodeException) (st : acc) (obj : pyval) :
  is_dict obj = false →
  loop_body inv st obj = Ok (st.1 ++ [PNone], st.2 ++ [Some (ELinode inv)]) ∨
  loop_body inv st obj = Raise TypeError.
Proof.
  intros H. destruct st as [ret errs]. unfold loop_body.
  destruct obj as [|b|z|f|s|l|d]; try discriminate H;
    try (right; reflexivity).
  - unfold py_or, py_not_in. simpl.
    destruct (is_substring "DATA" s); simpl; [|by left].
    destruct (is_substring "ERRORARRAY" s); simpl; [|by left].
    destruct (is_substring "ACTION" s); simpl; [by right|by left].
  - unfold py_or, py_not_in. simpl.
    destruct (existsb (str_equals "DATA") l); simpl; [|by left].
    destruct (existsb (str_equals "ERRORARRAY") l); simpl; [|by left].
    destruct (existsb (str_equals "ACTION") l); simpl; [by right|by left].
Qed.

Lemma non_dict_item_marked_or_raises_witness :
  loop_body invalid_json ([], [])
    (PList [PStr "DATA"; PStr "ERRORARRAY"; PStr "ACTION"])
  = Raise TypeError ∧
  loop_body invalid_json ([], []) (PStr "DATA")
  = Ok ([PNone], [Some (ELinode invalid_json)]).
Proof.
  split.
  - destruct (non_dict_item_marked_or_raises invalid_json ([], [])
                (PList [PStr "DATA"; PStr "ERRORARRAY"; PStr "ACTION"])
                eq_refl) as [H|H]; [discriminate H|exact H].
  - destruct (non_dict_item_marked_or_raises invalid_json ([], [])
                (PStr "DATA") eq_refl) as [H|H]; [exact H|discriminate H].
Defined.

(** A needle of two characters or more is in no string of one. *)
Lemma is_substring_one_char (a b : ascii) (r : string) (c : ascii) :
  is_substring (String a (String b r)) (String c EmptyString) = false.
Proof.
  change (is_substring (String a (String b r)) (String c EmptyString))
    with ((if ascii_dec a c then String.prefix (String b r) EmptyString
           else false) || (false || false)).
  by destruct (ascii_dec a c).
Qed.

(** A string of one character holds none of the key names. *)
Lemma one_char_lacks (inv : LinodeException) (st : acc) (c : ascii) :
  loop_body inv st (PStr (String c EmptyString))
  = Ok (st.1 ++ [PNone], st.2 ++ [Some (ELinode inv)]).
Proof.
  destruct st as [ret errs]. unfold loop_body, py_or, py_not_in, py_in.
  by rewrite (is_substring_one_char "D" "A" "TA" c).
Qed.

Lemma for_loop_chars (inv : LinodeException) (cs : list ascii) (st : acc) :
  for_loop inv ((λ c, PStr (String c EmptyString)) <$> cs) st
  = Ok (st.1 ++ replicate (length cs) PNone,
        st.2 ++ replicate (length cs) (Some (ELinode inv))).
Proof.
  revert st. induction cs as [|c cs IH]; intros st.
  - simpl. rewrite !app_nil_r. by destruct st.
  - rewrite fmap_cons, for_loop_cons, one_char_lacks. simpl.
    rewrite IH. simpl. by rewrite <- !app_assoc.
Qed.

(** X8: a body that decodes to a string is read character by character:
    every character gives a null marker and a sentinel, so that the
    constructor raises the sentinel unless the string is empty, when it
    returns a successful response without objects. *)
Theorem string_body_per_character
  (json_loads : string → option pyval) (response : HTTPResponse) (s : string) :
  json_loads (read response) = Some (PStr s) →
  parse_body json_loads (read response) invalid_json
    = Ok (Some (replicate (String.length s) PNone),
          replicate (String.length s) (Some (ELinode invalid_json))) ∧
  (s ≠ EmptyString →
     LinodeResponse_init json_loads response = Raise (ELinode invalid_json)) ∧
  (s = EmptyString →
     ∃ self, LinodeResponse_init json_loads response = Ok self ∧
             objects self = Some []).
Proof.
  intros E.
  assert (L : length (list_ascii_of_string s) = String.length s)
    by (clear E; induction s as [|a s IH]; simpl; [reflexivity|by rewrite IH]).
  assert (P : parse_body json_loads (read response) invalid_json
              = Ok (Some (replicate (String.length s) PNone),
                    replicate (String.length s) (Some (ELinode invalid_json)))).
  { rewrite (parse_body_decoded _ _ _ _ E). unfold extract. simpl.
    by rewrite for_loop_chars, L. }
  split; [exact P|]. rewrite (init_of_parse _ _ _ _ P). split.
  - intros Hs. destruct s; [done|reflexivity].
  - intros ->. simpl. eexists. split; reflexivity.
Qed.

Lemma string_body_per_character_witness :
  LinodeResponse_init (loads_from [(quoted "ok", PStr "ok")])
    (http_ok (quoted "ok"))
  = Raise (ELinode invalid_json).
Proof.
  apply (string_body_per_character (loads_from [(quoted "ok", PStr "ok")])
           (http_ok (quoted "ok")) "ok").
  - reflexivity.
  - discriminate.
Defined.

(** ** ERRORARRAY decides *)

Lemma init_raises_of_nonempty
  (json_loads : string → option pyval) (response : HTTPResponse)
  (objs : option (list pyval)) (v : err_entry) (errs : list err_entry) :
  parse_body json_loads (read response) invalid_json = Ok (objs, v :: errs) →
  ∃ e, LinodeResponse_init json_loads response = Raise e.
Proof.
  intros P. rewrite (init_of_parse _ _ _ _ P). destruct v; simpl; eauto.
Qed.

(** X9: for a lone envelope with the three keys whose ERRORARRAY is a
    list, the constructor returns exactly when that list is empty: any
    entry at all, well-formed or not, makes the request count as failed. *)
Theorem envelope_ok_iff_no_entries
  (json_loads : string → option pyval) (response : HTTPResponse)
  (d : list (string * pyval)) (data action : pyval) (entries : list pyval) :
  json_loads (read response) = Some (PDict d) →
  dict_get "DATA" d = Some data →
  dict_get "ERRORARRAY" d = Some (PList entries) →
  dict_get "ACTION" d = Some action →
  (∃ self, LinodeResponse_init json_loads response = Ok self) ↔ entries = [].
Proof.
  intros E Hd Ha Hc.
  pose proof (parse_body_decoded json_loads _ invalid_json _ E) as P.
  rewrite extract_dict, (loop_body_envelope _ _ _ _ _ _ Hd Ha Hc) in P.
  simpl in P. split.
  - intros [self I]. destruct entries as [|x entries]; [reflexivity|exfalso].
    destruct (mapM _make_excp (x :: entries)) as [made|e] eqn:M; simpl in P.
    + apply mapM_result_length in M. destruct made as [|v made]; [discriminate M|].
      destruct (init_raises_of_nonempty _ _ _ _ _ P) as [e I']. congruence.
    + destruct (init_raises_of_nonempty _ _ _ _ _ P) as [e' I']. congruence.
  - intros ->. simpl in P. rewrite (init_of_parse _ _ _ _ P). eauto.
Qed.

Lemma envelope_ok_iff_no_entries_witness :
  (∃ self,
     LinodeResponse_init sample_loads
       (http_ok (envelope_text "null" "[{}]" "x")) = Ok self)
  ↔ [PDict []] = [].
Proof.
  apply (envelope_ok_iff_no_entries sample_loads
           (http_ok (envelope_text "null" "[{}]" "x"))
           [("DATA", PNone); ("ERRORARRAY", PList [PDict []]);
            ("ACTION", PStr "x")] PNone (PStr "x") [PDict []]);
    reflexivity.
Defined.

Lemma mapM_make_excp_dicts (entries : list pyval) :
  Forall (λ v, is_dict v = true) entries →
  ∃ made, mapM _make_excp entries = Ok made.
Proof.
  induction 1 as [|x entries Hx _ [made IH]]; [by exists []|].
  destruct x as [| | | | | |en]; try discriminate Hx.
  rewrite mapM_result_cons, make_excp_dict, IH.
  destruct (dict_get "ERRORCODE" en), (dict_get "ERRORMESSAGE" en);
    simpl; eauto.
Qed.

(** X10: in a lone envelope whose ERRORARRAY is a list of dicts, the first
    entry alone decides what the constructor raises: with both keys
    present, an InvalidCredsError of its message when its code equals 4,
    else the LinodeException of its code and message. *)
Theorem first_entry_is_raised
  (json_loads : string → option pyval) (response : HTTPResponse)
  (d en : list (string * pyval)) (data action c m : pyval) (rest : list pyval) :
  json_loads (read response) = Some (PDict d) →
  dict_get "DATA" d = Some data →
  dict_get "ERRORARRAY" d = Some (PList (PDict en :: rest)) →
  dict_get "ACTION" d = Some action →
  dict_get "ERRORCODE" en = Some c →
  dict_get "ERRORMESSAGE" en = Some m →
  Forall (λ v, is_dict v = true) rest →
  LinodeResponse_init json_loads response =
  Raise (if py_eq_int c 4 then InvalidCredsError m
         else ELinode (LinodeException_init c m)).
Proof.
  intros E Hd Ha Hc Hcode Hmsg Hrest.
  destruct (mapM_make_excp_dicts _ Hrest) as [made M].
  pose proof (parse_body_decoded json_loads _ invalid_json _ E) as P.
  rewrite extract_dict, (loop_body_envelope _ _ _ _ _ _ Hd Ha Hc) in P.
  unfold py_iter in P.
  rewrite result_bind_Ok, mapM_result_cons, make_excp_dict, Hcode, Hmsg, M in P.
  simpl in P. by rewrite (init_of_parse _ _ _ _ P).
Qed.

Lemma first_entry_is_raised_witness :
  LinodeResponse_init sample_loads
    (http_ok (envelope_text "null"
                ("[" +:+ error_entry_text "4" "Auth failed" +:+ "]") "x"))
  = Raise (InvalidCredsError (PStr "Auth failed")).
Proof.
  apply (first_entry_is_raised sample_loads
           (http_ok (envelope_text "null"
                       ("[" +:+ error_entry_text "4" "Auth failed" +:+ "]") "x"))
           [("DATA", PNone);
            ("ERRORARRAY", PList [error_entry 4 "Auth failed"]);
            ("ACTION", PStr "x")]
           [("ERRORCODE", PInt 4); ("ERRORMESSAGE", PStr "Auth failed")]
           PNone (PStr "x") (PInt 4) (PStr "Auth failed") []);
    try reflexivity.
  constructor.
Defined.

Lemma make_excp_scalar (x : pyval) :
  is_scalar x = true → _make_excp x = Raise TypeError.
Proof. by destruct x. Qed.

Lemma mapM_make_excp_scalar (l1 l2 : list pyval) (x : pyval) :
  is_scalar x = true → ∃ e, mapM _make_excp (l1 ++ x :: l2) = Raise e.
Proof.
  intros S. induction l1 as [|y l1 [e IH]].
  - simpl app. rewrite mapM_result_cons, (make_excp_scalar _ S). simpl. eauto.
  - simpl app. rewrite mapM_result_cons, IH.
    destruct (_make_excp y); simpl; eauto.
Qed.

(** X11: an envelope with the three keys whose ERRORARRAY is a number, a
    boolean or null, or a list holding such a value as an entry, is treated
    as invalid JSON as a whole: [parse_body] gives the fallback pair and the
    constructor raises the sentinel. *)
Theorem scalar_in_errorarray_falls_back
  (json_loads : string → option pyval) (response : HTTPResponse)
  (d : list (string * pyval)) (data arr action : pyval) :
  json_loads (read response) = Some (PDict d) →
  dict_get "DATA" d = Some data →
  dict_get "ERRORARRAY" d = Some arr →
  dict_get "ACTION" d = Some action →
  (is_scalar arr = true ∨
   ∃ l1 x l2, arr = PList (l1 ++ x :: l2) ∧ is_scalar x = true) →
  parse_body json_loads (read response) invalid_json
    = Ok (None, [Some (ELinode invalid_json)]) ∧
  LinodeResponse_init json_loads response = Raise (ELinode invalid_json).
Proof.
  intros E Hd Ha Hc H.
  assert (X : ∃ e, extract invalid_json (PDict d) = Raise e).
  { rewrite extract_dict, (loop_body_envelope _ _ _ _ _ _ Hd Ha Hc).
    destruct H as [S | (l1 & x & l2 & -> & S)].
    - rewrite (py_iter_scalar _ S). simpl. eauto.
    - unfold py_iter. rewrite result_bind_Ok.
      destruct (mapM_make_excp_scalar l1 l2 x S) as [e ->].
      simpl. eauto. }
  destruct X as [e X].
  pose proof (parse_body_fallback _ _ _ _ _ E X) as P.
  split; [exact P|]. by rewrite (init_of_parse _ _ _ _ P).
Qed.

Lemma scalar_in_errorarray_falls_back_witness :
  LinodeResponse_init
    (loads_from [(envelope_text "1" "null" "a", envelope (PInt 1) PNone "a")])
    (http_ok (envelope_text "1" "null" "a"))
  = Raise (ELinode invalid_json).
Proof.
  apply (scalar_in_errorarray_falls_back
           (loads_from [(envelope_text "1" "null" "a", envelope (PInt 1) PNone "a")])
           (http_ok (envelope_text "1" "null" "a"))
           [("DATA", PInt 1); ("ERRORARRAY", PNone); ("ACTION", PStr "a")]
           (PInt 1) PNone (PStr "a"));
    try reflexivity.
  by left.
Defined.

(** ** Headers *)

Lemma dict_of_pairs_snoc (l : list (string * string)) (k v : string) :
  dict_of_pairs (l ++ [(k, v)]) = <[k := v]> (dict_of_pairs l).
Proof. unfold dict_of_pairs. by rewrite foldl_app. Qed.

(** X12: in [dict(response.getheaders())] a header name is bound to the
    value of its last occurrence, and a name that does not occur is not
    bound. *)
Theorem headers_last_value_wins
  (l1 l2 : list (string * string)) (k v k' : string) :
  k ∉ l2.*1 →
  k' ∉ (l1 ++ (k, v) :: l2).*1 →
  dict_of_pairs (l1 ++ (k, v) :: l2) !! k = Some v ∧
  dict_of_pairs (l1 ++ (k, v) :: l2) !! k' = None.
Proof.
  intros H2 H'. split.
  - clear H'. induction l2 as [|[k2 v2] l2 IH] using rev_ind.
    + rewrite dict_of_pairs_snoc. apply lookup_insert_eq.
    + rewrite fmap_app in H2. apply not_elem_of_app in H2 as [H2 Hk].
      change ((k, v) :: l2 ++ [(k2, v2)]) with (((k, v) :: l2) ++ [(k2, v2)]).
      rewrite app_assoc, dict_of_pairs_snoc, lookup_insert_ne; [by apply IH|].
      intros ->. apply Hk. simpl. apply list_elem_of_here.
  - revert H'. generalize (l1 ++ (k, v) :: l2). clear.
    intros l. induction l as [|[k2 v2] l IH] using rev_ind; intros H.
    + apply lookup_empty.
    + rewrite fmap_app in H. apply not_elem_of_app in H as [H Hk].
      rewrite dict_of_pairs_snoc, lookup_insert_ne; [by apply IH|].
      intros ->. apply Hk. simpl. apply list_elem_of_here.
Qed.

Lemma headers_last_value_wins_witness :
  dict_of_pairs [("Set-Cookie", "a"); ("Server", "x"); ("Set-Cookie", "b");
                 ("Date", "d")] !! "Set-Cookie" = Some "b" ∧
  dict_of_pairs [("Set-Cookie", "a"); ("Server", "x"); ("Set-Cookie", "b");
                 ("Date", "d")] !! "Via" = None.
Proof.
  apply (headers_last_value_wins
           [("Set-Cookie", "a"); ("Server", "x")] [("Date", "d")]
           "Set-Cookie" "b" "Via").
  - apply (bool_decide_unpack _). vm_compute. reflexivity.
  - apply (bool_decide_unpack _). vm_compute. reflexivity.
Defined.

(** ** String forms of the error value *)

(** X13: [__str__] and [__repr__] raise TypeError when the code is not a
    number (a string, a list, a dict or [None]), whatever the message; an
    API entry whose ERRORCODE is a JSON string gives such an exception. *)
Theorem str_of_non_number_code_raises
  (builtin_str : pyval → string) (d : list (string * pyval)) (c m : pyval) :
  dict_get "ERRORCODE" d = Some c →
  dict_get "ERRORMESSAGE" d = Some m →
  is_number c = false →
  _make_excp (PDict d) = Ok (Some (ELinode (LinodeException_init c m))) ∧
  LinodeException_str builtin_str (LinodeException_init c m) = Raise TypeError ∧
  LinodeException_repr builtin_str (LinodeException_init c m) = Raise TypeError.
Proof.
  intros Hc Hm N. rewrite make_excp_dict, Hc, Hm.
  by destruct c as [| | | | | |].
Qed.

Lemma str_of_non_number_code_raises_witness :
  LinodeException_str (λ _, "")
    (LinodeException_init (PStr "5") (PStr "m")) = Raise TypeError.
Proof.
  apply (str_of_non_number_code_raises (λ _, "")
           [("ERRORCODE", PStr "5"); ("ERRORMESSAGE", PStr "m")]
           (PStr "5") (PStr "m")); reflexivity.
Defined.

Lemma pretty_N_go_avoids (c : ascii) (x : N) (s : string) :
  (∀ n, pretty_N_char n ≠ c) → avoids c s → avoids c (pretty_N_go x s).
Proof.
  intros Hc. revert s.
  induction (N.lt_wf_0 x) as [x _ IH]; intros s Hs.
  destruct (decide (x = 0)%N) as [->|Hx].
  - by rewrite pretty_N_go_0.
  - rewrite pretty_N_go_step by lia. apply IH.
    + apply N.div_lt; lia.
    + simpl. split; [apply Hc|exact Hs].
Qed.

Lemma pretty_Z_avoids (c : ascii) (z : Z) :
  (∀ n, pretty_N_char n ≠ c) → c ≠ "-"%char → avoids c (pretty z).
Proof.
  intros Hc Hd.
  assert (P : ∀ p : positive, avoids c (pretty p)).
  { intros p. unfold pretty, pretty_positive, pretty, pretty_N.
    case_decide; [done|]. by apply pretty_N_go_avoids. }
  destruct z as [|p|p]; unfold pretty, pretty_Z.
  - simpl. split; [|done]. apply (Hc 0%N).
  - apply P.
  - simpl. split; [congruence|apply P].
Qed.

Lemma digit_not_paren (n : N) : pretty_N_char n ≠ ")"%char.
Proof. unfold pretty_N_char. repeat case_match; discriminate. Qed.

Lemma digit_not_space (n : N) : pretty_N_char n ≠ " "%char.
Proof. unfold pretty_N_char. repeat case_match; discriminate. Qed.

(** Two strings cut at the first occurrence of a character. *)
Lemma append_split_at (c : ascii) (p1 p2 r1 r2 : string) :
  avoids c p1 → avoids c p2 →
  p1 +:+ String c r1 = p2 +:+ String c r2 →
  p1 = p2 ∧ r1 = r2.
Proof.
  revert p2. induction p1 as [|a p1 IH]; intros [|b p2]; simpl.
  - intros _ _ [= ->]. done.
  - intros _ [Hb _] [= -> _]. done.
  - intros [Ha _] _ [= -> _]. done.
  - intros [_ H1] [_ H2] [= -> E]. destruct (IH _ H1 H2 E) as [-> ->]. done.
Qed.

Lemma append_cancel_r (s1 s2 t : string) :
  s1 +:+ t = s2 +:+ t → s1 = s2.
Proof.
  assert (L : ∀ a b, String.length (a +:+ b)
                     = (String.length a + String.length b)%nat)
    by (intros a b; induction a as [|x a IH]; simpl; [done|by rewrite IH]).
  revert s2. induction s1 as [|a s1 IH]; intros [|b s2]; simpl.
  - done.
  - intros E. apply (f_equal String.length) in E.
    simpl in E. rewrite ?L in E. simpl in E. lia.
  - intros E. apply (f_equal String.length) in E.
    simpl in E. rewrite ?L in E. simpl in E. lia.
  - intros [= -> E]. by rewrite (IH _ E).
Qed.

(** X14: on integer codes and text messages both string forms are
    injective: the code and the message can be read back from [str(e)] and
    from [repr(e)]. *)
Theorem LinodeException_forms_injective
  (builtin_str : pyval → string) (c1 c2 : Z) (m1 m2 : string) :
  let e1 := LinodeException_init (PInt c1) (PStr m1) in
  let e2 := LinodeException_init (PInt c2) (PStr m2) in
  (LinodeException_str builtin_str e1 = LinodeException_str builtin_str e2 →
     c1 = c2 ∧ m1 = m2) ∧
  (LinodeException_repr builtin_str e1 = LinodeException_repr builtin_str e2 →
     c1 = c2 ∧ m1 = m2).
Proof.
  split.
  - intros E. injection E as E.
    apply append_split_at in E as [Ep Em];
      try (apply pretty_Z_avoids; [apply digit_not_paren|discriminate]).
    injection Em as ->. split; [|done]. by apply (inj pretty).
  - intros E.
    change (Ok ("<LinodeException code " +:+
                 (pretty c1 +:+ String " " (String "'" (m1 +:+ "'>"))))
            = Ok ("<LinodeException code " +:+
                 (pretty c2 +:+ String " " (String "'" (m2 +:+ "'>")))))
      in E.
    injection E as E. apply (inj (String.append _)) in E.
    apply append_split_at in E as [Ep Em];
      try (apply pretty_Z_avoids; [apply digit_not_space|discriminate]).
    injection Em as Em. apply append_cancel_r in Em as ->.
    split; [|done]. by apply (inj pretty).
Qed.

Lemma LinodeException_forms_injective_witness :
  (255 = 255 ∧ "Invalid JSON received from server"
               = "Invalid JSON received from server").
Proof.
  apply (LinodeException_forms_injective (λ _, "") 255 255
           "Invalid JSON received from server"
           "Invalid JSON received from server").
  reflexivity.
Defined.

(** ** Repeated parameter injection *)

Lemma defaults_absorb (k1 k2 : pyval) (d : gmap string pyval) :
  <["api_responseFormat" := PStr "json"]>
    (<["api_key" := k2]>
       (<["api_responseFormat" := PStr "json"]> (<["api_key" := k1]> d)))
  = <["api_responseFormat" := PStr "json"]> (<["api_key" := k2]> d).
Proof.
  apply map_eq. intros i.
  destruct (decide (i = "api_responseFormat")) as [->|Hf];
    [by rewrite !lookup_insert_eq|].
  rewrite !(lookup_insert_ne _ "api_responseFormat") by done.
  destruct (decide (i = "api_key")) as [->|Hk];
    [by rewrite !lookup_insert_eq|].
  by repeat rewrite lookup_insert_ne by done.
Qed.

(** X15: injecting the defaults again changes nothing, and injecting them
    for another key leaves the store as if only the later injection had
    been made: the earlier key is overwritten, nothing accumulates. *)
Theorem add_default_params_again
  (k1 k2 : pyval) (params r : ref) (h h1 : store) :
  add_default_params k1 params h = Some (r, h1) →
  r = params ∧
  add_default_params k1 r h1 = Some (r, h1) ∧
  add_default_params k2 r h1 = add_default_params k2 params h.
Proof.
  intros A.
  destruct (h !! params) as [d|] eqn:Hd.
  - rewrite (add_default_params_allocated _ _ _ _ Hd) in A.
    injection A as <- <-.
    assert (H1 : ∀ k, add_default_params k params
                        (<[params := <["api_responseFormat" := PStr "json"]>
                                       (<["api_key" := k1]> d)]> h)
                      = add_default_params k params h).
    { intros k.
      rewrite (add_default_params_allocated k params _ _ (lookup_insert_eq _ _ _)).
      rewrite (add_default_params_allocated k params _ _ Hd).
      by rewrite insert_insert_eq, defaults_absorb. }
    repeat split; [|apply H1].
    rewrite H1. apply (add_default_params_allocated _ _ _ _ Hd).
  - unfold add_default_params, setitem in A. rewrite Hd in A. discriminate A.
Qed.

Lemma add_default_params_again_witness :
  add_default_params (PStr "K2") 1%positive
    {[ 1%positive := {[ "foo" := PStr "bar"; "api_key" := PStr "K";
                        "api_responseFormat" := PStr "json" ]} ]}
  = add_default_params (PStr "K2") 1%positive
      {[ 1%positive := {[ "foo" := PStr "bar" ]} ]}.
Proof.
  apply (add_default_params_again (PStr "K") (PStr "K2") 1%positive 1%positive
           {[ 1%positive := {[ "foo" := PStr "bar" ]} ]}).
  vm_compute. reflexivity.
Defined.

(** X16: the injection adds exactly the two names to the keys of the dict
    behind [params] and allocates no object: the keys afterwards are the
    old ones with "api_key" and "api_responseFormat", and the store has the
    references it had. *)
Theorem add_default_params_keys
  (self_key : pyval) (params : ref) (h : store) (d : gmap string pyval) :
  h !! params = Some d →
  ∃ h' d',
    add_default_params self_key params h = Some (params, h') ∧
    h' !! params = Some d' ∧
    dom d' = {[ "api_key"; "api_responseFormat" ]} ∪ dom d ∧
    dom h' = dom h.
Proof.
  intros Hd. rewrite (add_default_params_allocated _ _ _ _ Hd).
  eexists _, _. split; [reflexivity|]. split; [apply lookup_insert_eq|].
  split.
  - rewrite !dom_insert_L. set_solver.
  - rewrite dom_insert_L. apply elem_of_dom_2 in Hd. set_solver.
Qed.

Lemma add_default_params_keys_witness :
  ∃ h' d',
    add_default_params (PStr "K") 1%positive
      {[ 1%positive := {[ "foo" := PStr "bar" ]} ]} = Some (1%positive, h') ∧
    h' !! 1%positive = Some d' ∧
    dom d' = {[ "api_key"; "api_responseFormat" ]}
             ∪ dom ({[ "foo" := PStr "bar" ]} : gmap string pyval) ∧
    dom h' = dom ({[ 1%positive := {[ "foo" := PStr "bar" ]} ]} : store).
Proof.
  apply (add_default_params_keys (PStr "K") 1%positive
           {[ 1%positive := {[ "foo" := PStr "bar" ]} ]}
           {[ "foo" := PStr "bar" ]}).
  reflexivity.
Defined.

(** ** The plan table *)

(** X17: [LINODE_PLAN_IDS] repeats no RAM figure and no plan id, and hands
    out the ids 1 to 10 in the order of increasing RAM. *)
Theorem plan_ids_one_to_one :
  NoDup (LINODE_PLAN_IDS.*1) ∧ NoDup (LINODE_PLAN_IDS.*2) ∧
  LINODE_PLAN_IDS.*2 = pretty <$> seqZ 1 10 ∧
  (∀ i j r1 r2, LINODE_PLAN_IDS.*1 !! i = Some r1 →
                LINODE_PLAN_IDS.*1 !! j = Some r2 →
                (i < j)%nat → r1 < r2).
Proof.
  split; [apply (bool_decide_unpack _); by vm_compute|].
  split; [apply (bool_decide_unpack _); by vm_compute|].
  split; [by vm_compute|].
  intros i j r1 r2 Hi Hj Hlt.
  assert (j < 10)%nat by (apply lookup_lt_Some in Hj; simpl in Hj; lia).
  do 10 (destruct i as [|i]; [
    do 10 (destruct j as [|j]; [simpl in Hi, Hj; try lia;
                                 injection Hi as <-; injection Hj as <-; lia|]);
    lia|]).
  lia.
Qed.

(** ** Order and number of errors *)

Lemma mapM_make_excp_entry_error (entries : list pyval) :
  Forall (λ v, is_dict v = true) entries →
  mapM _make_excp entries = Ok (entry_error <$> entries).
Proof.
  induction 1 as [|x entries Hx _ IH]; [reflexivity|].
  destruct x as [| | | | | |en]; try discriminate Hx.
  rewrite mapM_result_cons, make_excp_dict, IH. simpl.
  by destruct (dict_get "ERRORCODE" en), (dict_get "ERRORMESSAGE" en).
Qed.

(** X18: for a lone envelope whose ERRORARRAY is a list of dicts,
    [parse_body] returns the DATA value as the only object and one entry of
    [errors] per entry of ERRORARRAY, in the order of ERRORARRAY. *)
Theorem errors_follow_errorarray
  (json_loads : string → option pyval) (self_body : string)
  (inv : LinodeException)
  (d : list (string * pyval)) (data action : pyval) (entries : list pyval) :
  json_loads self_body = Some (PDict d) →
  dict_get "DATA" d = Some data →
  dict_get "ERRORARRAY" d = Some (PList entries) →
  dict_get "ACTION" d = Some action →
  Forall (λ v, is_dict v = true) entries →
  parse_body json_loads self_body inv
    = Ok (Some [data], entry_error <$> entries).
Proof.
  intros E Hd Ha Hc H.
  rewrite (parse_body_decoded _ _ _ _ E), extract_dict,
    (loop_body_envelope _ _ _ _ _ _ Hd Ha Hc).
  unfold py_iter. by rewrite result_bind_Ok, (mapM_make_excp_entry_error _ H).
Qed.

Lemma errors_follow_errorarray_witness :
  parse_body sample_loads
    (envelope_text "null" ("[{}, " +:+ error_entry_text "5" "m" +:+ "]") "x")
    invalid_json
  = Ok (Some [PNone],
        [None; Some (ELinode (LinodeException_init (PInt 5) (PStr "m")))]).
Proof.
  apply (errors_follow_errorarray sample_loads _ invalid_json
           [("DATA", PNone);
            ("ERRORARRAY", PList [PDict []; error_entry 5 "m"]);
            ("ACTION", PStr "x")]
           PNone (PStr "x") [PDict []; error_entry 5 "m"]);
    try reflexivity.
  by repeat constructor.
Defined.

(** X19: an entry with both keys becomes an InvalidCredsError exactly when
    its code is the integer 4 or a float equal to 4; a boolean, a string
    such as "4", a list, a dict or null never does. *)
Theorem invalid_creds_iff_code_four
  (d : list (string * pyval)) (c m : pyval) :
  dict_get "ERRORCODE" d = Some c →
  dict_get "ERRORMESSAGE" d = Some m →
  _make_excp (PDict d) = Ok (Some (InvalidCredsError m)) ↔
  (c = PInt 4 ∨ ∃ q, c = PFloat (FFinite q) ∧ Qeq q (inject_Z 4)).
Proof.
  intros Hc Hm. rewrite make_excp_dict, Hc, Hm. split.
  - destruct (py_eq_int c 4) eqn:E; [intros _|discriminate].
    destruct c as [|b|z|[q| |]| | |]; simpl in E; try discriminate E.
    + by destruct b.
    + left. f_equal. by apply Z.eqb_eq.
    + right. exists q. split; [done|]. by apply Qeq_bool_iff.
  - intros [->|(q & -> & Hq)]; [reflexivity|].
    simpl. apply Qeq_bool_iff in Hq. by rewrite Hq.
Qed.

Lemma invalid_creds_iff_code_four_witness :
  _make_excp (PDict [("ERRORCODE", PStr "4"); ("ERRORMESSAGE", PStr "m")])
    = Ok (Some (InvalidCredsError (PStr "m"))) ↔
  (PStr "4" = PInt 4 ∨
   ∃ q, PStr "4" = PFloat (FFinite q) ∧ Qeq q (inject_Z 4)).
Proof.
  apply (invalid_creds_iff_code_four
           [("ERRORCODE", PStr "4"); ("ERRORMESSAGE", PStr "m")]
           (PStr "4") (PStr "m")); reflexivity.
Defined.

(** ** The fallback pair *)

(** X20: [parse_body] returns [None] for [objects] only as the fallback:
    then the body was decoded, the extract step raised, and [errors] is the
    sentinel alone. *)
Theorem objects_None_only_in_fallback
  (json_loads : string → option pyval) (self_body : string)
  (inv : LinodeException) (errs : list err_entry) :
  parse_body json_loads self_body inv = Ok (None, errs) →
  errs = [Some (ELinode inv)] ∧
  ∃ js e, json_loads self_body = Some js ∧ extract inv js = Raise e.
Proof.
  unfold parse_body. destruct (json_loads self_body) as [js|]; [|discriminate].
  destruct (extract inv js) as [[ret es]|e] eqn:X; simpl; [discriminate|].
  intros [= <-]. eauto.
Qed.

Lemma objects_None_only_in_fallback_witness :
  [Some (ELinode invalid_json)] = [Some (ELinode invalid_json)] ∧
  ∃ js e, sample_loads "42" = Some js ∧ extract invalid_json js = Raise e.
Proof.
  apply (objects_None_only_in_fallback sample_loads "42" invalid_json).
  reflexivity.
Defined.
